(** * Fitness tracker (homework.py): workouts, summaries and the factory

    Two shallow embeddings of [homework.py] and the properties its
    specification states about it.

    The first embedding is the program over exact numbers.  Python's
    [int] and [float] are both modelled by the rationals [Q], into which
    the integers embed exactly; binary64 rounding and overflow are left
    out, so its statements are about the values the formulas denote, and
    they are kept to what rounding does not change: which formula is
    computed, signs, and the flow of control.  Equality of results is
    [Qeq] ([==]), since a rational has many representations.  A Python
    call either returns or raises; [result A] keeps the two apart, and
    the operators [/] and [//] raise [ZeroDivisionError] on a zero divisor
    as Python's do (for [int] and [float] alike).

    The second embedding, the module [Py], is the program as it runs: on
    Python's numbers, with binary64 floats, and on objects that live on
    a heap.  Exact values and what a call does to the objects are stated
    there. *)

From Stdlib Require Import QArith Qround Qabs Lqa Floats.
From stdpp Require Import base option strings gmap.

Local Open Scope string_scope.
Local Open Scope Q_scope.

(** ** Exceptions and results *)

Inductive exception : Type :=
| ZeroDivisionError
| NotImplementedError
| KeyError (msg : string)
| TypeError
| OverflowError
| AttributeError.

Inductive result (A : Type) : Type :=
| Ok (a : A)
| Raise (e : exception).

Arguments Ok {A} a.
Arguments Raise {A} e.

#[export] Instance result_ret : MRet result := @Ok.

#[export] Instance result_bind : MBind result :=
  fun A B (f : A -> result B) (r : result A) =>
    match r with
    | Ok a => f a
    | Raise e => Raise e
    end.

(** ** Python's arithmetic operators on numbers *)

(** [x / y]: true division. *)
Definition truediv (x y : Q) : result Q :=
  if Qeq_bool y 0 then Raise ZeroDivisionError else Ok (x / y).

(** [x // y]: floor division; the quotient is rounded towards minus
    infinity and returned as a number. *)
Definition floordiv (x y : Q) : result Q :=
  if Qeq_bool y 0 then Raise ZeroDivisionError
  else Ok (inject_Z (Qfloor (x / y))).

(** [x ** 2]. *)
Definition pow2 (x : Q) : Q := x ^ 2.

(** ** InfoMessage

    The five fields given to the constructor.  The sixth attribute,
    [message], is the text [__post_init__] renders from them with [:.3f];
    its digits depend on binary64 rounding and no property below reads
    it, so it is left out of the record. *)
Module InfoMessage.
Record t : Type := Build {
  training_type : string;
  duration : Q;
  distance : Q;
  speed : Q;
  calories : Q
}.
End InfoMessage.

(** ** Training and its subclasses

    One constructor per class.  [Training] itself is a plain dataclass
    and can be instantiated, so it has a constructor too.  Fields are in
    the order of the generated [__init__]: the base fields first, then
    the subclass's own. The annotations ([action: int], [count_pool: int],
    the others [float]) are not enforced by a dataclass, so every field
    holds a number. *)
Inductive training : Type :=
| Training (action duration weight : Q)
| Running (action duration weight : Q)
| SportsWalking (action duration weight height : Q)
| Swimming (action duration weight length_pool count_pool : Q).

(** The classes as objects: the values of [TrainingFactory.WORKOUTS] and
    of [self.__class__]. *)
Inductive training_class : Type :=
| TrainingCls
| RunningCls
| SportsWalkingCls
| SwimmingCls.

Definition class_of (self : training) : training_class :=
  match self with
  | Training _ _ _ => TrainingCls
  | Running _ _ _ => RunningCls
  | SportsWalking _ _ _ _ => SportsWalkingCls
  | Swimming _ _ _ _ _ => SwimmingCls
  end.

(** [cls.__name__] *)
Definition class_name (cls : training_class) : string :=
  match cls with
  | TrainingCls => "Training"
  | RunningCls => "Running"
  | SportsWalkingCls => "SportsWalking"
  | SwimmingCls => "Swimming"
  end.

(** Instance attributes. *)
Definition action (self : training) : Q :=
  match self with
  | Training a _ _ | Running a _ _ | SportsWalking a _ _ _
  | Swimming a _ _ _ _ => a
  end.

Definition duration (self : training) : Q :=
  match self with
  | Training _ d _ | Running _ d _ | SportsWalking _ d _ _
  | Swimming _ d _ _ _ => d
  end.

Definition weight (self : training) : Q :=
  match self with
  | Training _ _ w | Running _ _ w | SportsWalking _ _ w _
  | Swimming _ _ w _ _ => w
  end.

(** Class attributes, looked up through the instance: [Swimming]
    redefines [LEN_STEP], the other two constants are inherited. *)
Definition LEN_STEP (self : training) : Q :=
  match self with
  | Swimming _ _ _ _ _ => 1.38
  | _ => 0.65
  end.

Definition M_IN_KM : Q := 1000.
Definition MIN_IN_HOUR : Q := 60.

(** ** Methods *)

Definition get_distance (self : training) : result Q :=
  truediv (action self * LEN_STEP self) M_IN_KM.

Definition get_mean_speed (self : training) : result Q :=
  match self with
  | Swimming _ duration _ length_pool count_pool =>
      km ← truediv (length_pool * count_pool) M_IN_KM;
      truediv km duration
  | _ =>
      distance ← get_distance self;
      truediv distance (duration self)
  end.

Definition get_spent_calories (self : training) : result Q :=
  match self with
  | Training _ _ _ => Raise NotImplementedError
  | Running _ duration weight =>
      let coeff_1 := 18 in
      let coeff_2 := 20 in
      speed ← get_mean_speed self;
      per_km ← truediv ((coeff_1 * speed - coeff_2) * weight) M_IN_KM;
      Ok (per_km * duration * MIN_IN_HOUR)
  | SportsWalking _ duration weight height =>
      let coeff_1 := 0.035 in
      let coeff_2 := 0.029 in
      speed ← get_mean_speed self;
      ratio ← floordiv (pow2 speed) height;
      Ok ((coeff_1 + ratio * coeff_2) * weight * duration * MIN_IN_HOUR)
  | Swimming _ _ weight _ _ =>
      let coeff_1 := 1.1 in
      let coeff_2 := 2 in
      speed ← get_mean_speed self;
      Ok ((speed + coeff_1) * coeff_2 * weight)
  end.

(** The keyword arguments are evaluated in the order they are written,
    so the first method that raises decides the exception. *)
Definition show_training_info (self : training) : result InfoMessage.t :=
  distance ← get_distance self;
  speed ← get_mean_speed self;
  calories ← get_spent_calories self;
  Ok (InfoMessage.Build (class_name (class_of self)) (duration self)
        distance speed calories).

(** ** The factory *)

Module WorkoutType.
Definition SWIMMING : string := "SWM".
Definition RUNNING : string := "RUN".
Definition SPORTS_WALKING : string := "WLK".
End WorkoutType.

(** Calling the class on the unpacked arguments: the [__init__] a
    dataclass generates binds the positional arguments to the fields in
    order and raises [TypeError] when there are too few or too many. *)
Definition new (cls : training_class) (args : list Q) : result training :=
  match cls, args with
  | TrainingCls, [action; duration; weight] =>
      Ok (Training action duration weight)
  | RunningCls, [action; duration; weight] =>
      Ok (Running action duration weight)
  | SportsWalkingCls, [action; duration; weight; height] =>
      Ok (SportsWalking action duration weight height)
  | SwimmingCls, [action; duration; weight; length_pool; count_pool] =>
      Ok (Swimming action duration weight length_pool count_pool)
  | _, _ => Raise TypeError
  end.

Module TrainingFactory.
Definition WORKOUTS : gmap string training_class :=
  <[WorkoutType.SWIMMING := SwimmingCls]>
    (<[WorkoutType.RUNNING := RunningCls]>
       (<[WorkoutType.SPORTS_WALKING := SportsWalkingCls]> ∅)).

(** The message is not an f-string in the source: the braces are part
    of the text. *)
Definition create (workout_type : string) (args : list Q)
  : result training :=
  match WORKOUTS !! workout_type with
  | None => Raise (KeyError "Unknown workout type: '{workout_type}'")
  | Some cls => new cls args
  end.
End TrainingFactory.

Definition read_package (workout_type : string) (data : list Q)
  : result training :=
  TrainingFactory.create workout_type data.

(** ** The formulas as the specification words them

    Each definition here follows the specification's text, not the code;
    the theorems below compare the methods with them. *)
Module Spec.
Definition distance_km (action_count len_step : Q) : Q :=
  action_count * len_step / 1000.

Definition running_calories (mean_speed weight_kg duration_hours : Q) : Q :=
  (18 * mean_speed - 20) * weight_kg / 1000 * duration_hours * 60.

Definition swimming_speed (pool_length_m pool_laps duration_hours : Q) : Q :=
  pool_length_m * pool_laps / 1000 / duration_hours.

Definition swimming_calories (mean_speed weight_kg : Q) : Q :=
  (mean_speed + 1.1) * 2 * weight_kg.

(** Two values agree approximately, up to [tol], when they differ by
    at most [tol]. *)
Definition approx (tol x y : Q) : Prop := Qabs (x - y) <= tol.
End Spec.

(** The sample packages of the driver. *)
Definition sample_running : training := Running 15000 1 75.
Definition sample_walking : training := SportsWalking 9000 1 75 180.
Definition sample_swimming : training := Swimming 720 1 80 25 40.

(** The inputs the specification calls valid for distance and speed. *)
Definition nonneg_inputs (self : training) : Prop :=
  0 <= action self /\ 0 < duration self /\ 0 < weight self /\
  match self with
  | Swimming _ _ _ length_pool count_pool =>
      0 < length_pool /\ 0 <= count_pool
  | _ => True
  end.

(** The activity codes of the fixed vocabulary. *)
Definition recognized (code : string) : Prop :=
  code = "SWM" \/ code = "RUN" \/ code = "WLK".

(** * The program on binary64 numbers and heap objects

    The second embedding keeps what the first one abstracts away.

    Numbers are Python's: an [int] of any size or a [float], which is an
    IEEE 754 binary64 number.  The operators convert and round as
    CPython's do, and raise [OverflowError] and [ZeroDivisionError] where
    they do.

    Objects live on a heap and are reached through references.  A method
    is a computation on the heap that returns a value or raises and
    leaves a heap behind; that the methods of a workout only read is then
    a property to prove, not a feature of the notation. *)
Module Py.

#[local] Set Warnings "-inexact-float".

Inductive number : Type :=
| Int (z : Z)
| Float (f : float).

(** ** Binary64 helpers the C library provides *)

(** A finite float as [m * 2 ^ e]; [None] for an infinity or a NaN. *)
Definition decompose (x : float) : option (Z * Z) :=
  match Prim2SF x with
  | S754_zero _ => Some (0, 0)%Z
  | S754_finite s m e => Some (if s then Zneg m else Zpos m, e)
  | _ => None
  end.

(** [m * 2 ^ e] rounded to the nearest float, ties to even; a zero takes
    the sign [szero], an overflow gives an infinity. *)
Definition compose (m e : Z) (szero : bool) : float :=
  SF2Prim (binary_normalize prec emax m e szero).

(** C's [fmod]: the exact remainder of the truncated quotient, with the
    sign of [x]. *)
Definition fmod (x y : float) : float :=
  match decompose x, decompose y with
  | Some (mx, ex), Some (my, ey) =>
      if (my =? 0)%Z then nan
      else if (mx =? 0)%Z then x
      else
        let e := Z.min ex ey in
        compose (Z.rem (mx * 2 ^ (ex - e)) (my * 2 ^ (ey - e))) e (get_sign x)
  | Some _, None => if is_nan y then nan else x
  | None, _ => nan
  end.

(** C's [floor]. *)
Definition floor (x : float) : float :=
  match decompose x with
  | Some (m, e) =>
      if (0 <=? e)%Z then x else compose (m / 2 ^ (- e)) 0 (get_sign x)
  | None => x
  end.

(** C's [copysign(0.0, x)]. *)
Definition copysign_zero (x : float) : float :=
  if get_sign x then neg_zero else zero.

(** ** Python's arithmetic *)

(** An [int] operand of a float operation is converted first, rounding
    to nearest, and is rejected when it is too large. *)
Definition to_float (n : number) : result float :=
  match n with
  | Float f => Ok f
  | Int z =>
      let f := compose z 0 false in
      if is_infinity f then Raise OverflowError else Ok f
  end.

(** [int / int]: the exact quotient, rounded once. *)
Definition int_truediv (a b : Z) : result float :=
  if (b =? 0)%Z then Raise ZeroDivisionError
  else
    let negative := xorb (a <? 0)%Z (b <? 0)%Z in
    let s := Z.max 0 (66 - (Z.log2 (Z.abs a) - Z.log2 (Z.abs b))) in
    let n := (Z.abs a * 2 ^ s)%Z in
    let sticky := if (n mod Z.abs b =? 0)%Z then 0%Z else 1%Z in
    let m := (2 * (n / Z.abs b) + sticky)%Z in
    let f := compose (if negative then - m else m)%Z (- s - 1) negative in
    if is_infinity f then Raise OverflowError else Ok f.

(** [float // float], as CPython computes it from [fmod]. *)
Definition float_floordiv (vx wx : float) : float :=
  let mod_ := fmod vx wx in
  let div := ((vx - mod_) / wx)%float in
  let div :=
    if negb (mod_ =? 0)%float && xorb (wx <? 0)%float (mod_ <? 0)%float
    then (div - 1)%float else div in
  if negb (div =? 0)%float
  then
    let floordiv := floor div in
    if (0.5 <? div - floordiv)%float then (floordiv + 1)%float else floordiv
  else copysign_zero (vx / wx)%float.

(** [x * y] *)
Definition mul (x y : number) : result number :=
  match x, y with
  | Int a, Int b => Ok (Int (a * b))
  | _, _ => a ← to_float x; b ← to_float y; Ok (Float (a * b))
  end.

(** [x + y] *)
Definition add (x y : number) : result number :=
  match x, y with
  | Int a, Int b => Ok (Int (a + b))
  | _, _ => a ← to_float x; b ← to_float y; Ok (Float (a + b))
  end.

(** [x - y] *)
Definition sub (x y : number) : result number :=
  match x, y with
  | Int a, Int b => Ok (Int (a - b))
  | _, _ => a ← to_float x; b ← to_float y; Ok (Float (a - b))
  end.

(** [x / y] *)
Definition truediv (x y : number) : result number :=
  match x, y with
  | Int a, Int b => f ← int_truediv a b; Ok (Float f)
  | _, _ =>
      a ← to_float x; b ← to_float y;
      if (b =? 0)%float then Raise ZeroDivisionError else Ok (Float (a / b))
  end.

(** [x // y] *)
Definition floordiv (x y : number) : result number :=
  match x, y with
  | Int a, Int b =>
      if (b =? 0)%Z then Raise ZeroDivisionError else Ok (Int (a / b))
  | _, _ =>
      a ← to_float x; b ← to_float y;
      if (b =? 0)%float then Raise ZeroDivisionError
      else Ok (Float (float_floordiv a b))
  end.

(** [x ** 2].  For a float CPython calls the C library's [pow(x, 2.0)]
    after its own special cases and raises [OverflowError] when a finite
    base gives an infinity; [pow] is taken to round correctly, so that it
    returns the rounded product. *)
Definition pow2 (x : number) : result number :=
  match x with
  | Int a => Ok (Int (a * a))
  | Float v =>
      if is_nan v then Ok (Float v)
      else if is_infinity v then Ok (Float infinity)
      else
        let r := (abs v * abs v)%float in
        if is_infinity r then Raise OverflowError else Ok (Float r)
  end.

(** ** Objects *)

Module InfoMessage.
Record t : Type := Build {
  training_type : string;
  duration : number;
  distance : number;
  speed : number;
  calories : number
}.
End InfoMessage.

(** An instance of [Training] or of a subclass: its class and the
    values of its fields, in the order of the generated [__init__]. *)
Inductive training : Type :=
| Training (action duration weight : number)
| Running (action duration weight : number)
| SportsWalking (action duration weight height : number)
| Swimming (action duration weight length_pool count_pool : number).

Inductive object : Type :=
| TrainingObj (t : training)
| InfoMessageObj (m : InfoMessage.t).

(** A reference is an index into the heap; a new object goes to the end,
    and nothing is ever freed. *)
Definition ref : Type := nat.
Definition heap : Type := list object.

Definition class_of (t : training) : training_class :=
  match t with
  | Training _ _ _ => TrainingCls
  | Running _ _ _ => RunningCls
  | SportsWalking _ _ _ _ => SportsWalkingCls
  | Swimming _ _ _ _ _ => SwimmingCls
  end.

Definition action (t : training) : option number :=
  match t with
  | Training a _ _ | Running a _ _ | SportsWalking a _ _ _
  | Swimming a _ _ _ _ => Some a
  end.

Definition duration (t : training) : option number :=
  match t with
  | Training _ d _ | Running _ d _ | SportsWalking _ d _ _
  | Swimming _ d _ _ _ => Some d
  end.

Definition weight (t : training) : option number :=
  match t with
  | Training _ _ w | Running _ _ w | SportsWalking _ _ w _
  | Swimming _ _ w _ _ => Some w
  end.

Definition height (t : training) : option number :=
  match t with
  | SportsWalking _ _ _ h => Some h
  | _ => None
  end.

Definition length_pool (t : training) : option number :=
  match t with
  | Swimming _ _ _ l _ => Some l
  | _ => None
  end.

Definition count_pool (t : training) : option number :=
  match t with
  | Swimming _ _ _ _ c => Some c
  | _ => None
  end.

(** The class attributes, found through the instance's class. *)
Definition LEN_STEP (t : training) : option number :=
  match t with
  | Swimming _ _ _ _ _ => Some (Float 1.38)
  | _ => Some (Float 0.65)
  end.

Definition M_IN_KM : number := Int 1000.
Definition MIN_IN_HOUR : number := Int 60.

(** ** Computations on the heap *)

Definition M (A : Type) : Type := heap -> result A * heap.

#[global] Instance M_ret : MRet M := fun A (a : A) (h : heap) => (Ok a, h).

#[global] Instance M_bind : MBind M :=
  fun A B (f : A -> M B) (m : M A) (h : heap) =>
    match m h with
    | (Ok a, h') => f a h'
    | (Raise e, h') => (Raise e, h')
    end.

(** The outcome of a heap-free computation. *)
Definition lift {A : Type} (r : result A) : M A := fun h => (r, h).

(** [self.name]: an attribute of the workout that [self] refers to; a
    reference to anything else has no such attribute. *)
Definition getattr {A : Type} (name : training -> option A) (self : ref)
  : M A :=
  fun h =>
    match h !! self with
    | Some (TrainingObj t) =>
        match name t with
        | Some v => (Ok v, h)
        | None => (Raise AttributeError, h)
        end
    | _ => (Raise AttributeError, h)
    end.

(** A new object. *)
Definition alloc (o : object) : M ref := fun h => (Ok (length h), (h ++ [o])%list).

(** ** Methods *)

Definition get_distance (self : ref) : M number :=
  action ← getattr action self;
  len_step ← getattr LEN_STEP self;
  steps ← lift (mul action len_step);
  lift (truediv steps M_IN_KM).

Definition get_mean_speed (self : ref) : M number :=
  cls ← getattr (fun t => Some (class_of t)) self;
  match cls with
  | SwimmingCls =>
      length_pool ← getattr length_pool self;
      count_pool ← getattr count_pool self;
      metres ← lift (mul length_pool count_pool);
      km ← lift (truediv metres M_IN_KM);
      duration ← getattr duration self;
      lift (truediv km duration)
  | _ =>
      distance ← get_distance self;
      duration ← getattr duration self;
      lift (truediv distance duration)
  end.

Definition get_spent_calories (self : ref) : M number :=
  cls ← getattr (fun t => Some (class_of t)) self;
  match cls with
  | TrainingCls => lift (Raise NotImplementedError)
  | RunningCls =>
      let coeff_1 := Float 18 in
      let coeff_2 := Float 20 in
      speed ← get_mean_speed self;
      x ← lift (mul coeff_1 speed);
      x ← lift (sub x coeff_2);
      weight ← getattr weight self;
      x ← lift (mul x weight);
      x ← lift (truediv x M_IN_KM);
      duration ← getattr duration self;
      x ← lift (mul x duration);
      lift (mul x MIN_IN_HOUR)
  | SportsWalkingCls =>
      let coeff_1 := Float 0.035 in
      let coeff_2 := Float 0.029 in
      speed ← get_mean_speed self;
      square ← lift (pow2 speed);
      height ← getattr height self;
      ratio ← lift (floordiv square height);
      x ← lift (mul ratio coeff_2);
      x ← lift (add coeff_1 x);
      weight ← getattr weight self;
      x ← lift (mul x weight);
      duration ← getattr duration self;
      x ← lift (mul x duration);
      lift (mul x MIN_IN_HOUR)
  | SwimmingCls =>
      let coeff_1 := Float 1.1 in
      let coeff_2 := Float 2 in
      speed ← get_mean_speed self;
      x ← lift (add speed coeff_1);
      x ← lift (mul x coeff_2);
      weight ← getattr weight self;
      lift (mul x weight)
  end.

(** The keyword arguments are evaluated in the order they are written;
    the message, a new object, is returned by reference.  Its [message]
    text is not modelled. *)
Definition show_training_info (self : ref) : M ref :=
  cls ← getattr (fun t => Some (class_of t)) self;
  duration ← getattr duration self;
  distance ← get_distance self;
  speed ← get_mean_speed self;
  calories ← get_spent_calories self;
  alloc (InfoMessageObj
           (InfoMessage.Build (class_name cls) duration distance speed
              calories)).

(** ** The factory *)

(** Calling the class on the unpacked arguments makes a new instance
    with the values bound to the fields in order, or raises [TypeError]
    when there are too few or too many. *)
Definition new (cls : training_class) (args : list number) : M ref :=
  match cls, args with
  | TrainingCls, [action; duration; weight] =>
      alloc (TrainingObj (Training action duration weight))
  | RunningCls, [action; duration; weight] =>
      alloc (TrainingObj (Running action duration weight))
  | SportsWalkingCls, [action; duration; weight; height] =>
      alloc (TrainingObj (SportsWalking action duration weight height))
  | SwimmingCls, [action; duration; weight; length_pool; count_pool] =>
      alloc (TrainingObj
               (Swimming action duration weight length_pool count_pool))
  | _, _ => lift (Raise TypeError)
  end.

Definition create (workout_type : string) (args : list number) : M ref :=
  match TrainingFactory.WORKOUTS !! workout_type with
  | None => lift (Raise (KeyError "Unknown workout type: '{workout_type}'"))
  | Some cls => new cls args
  end.

Definition read_package (workout_type : string) (data : list number)
  : M ref :=
  create workout_type data.

(** ** The walking formula as the specification words it

    [(0.035 + floor(mean_speed^2 / height) * 0.029) * weight * duration
    * 60], with Python's operators, evaluated from left to right. *)
Definition spec_walking_calories
  (mean_speed height weight_kg duration_hours : number) : result number :=
  square ← pow2 mean_speed;
  ratio ← floordiv square height;
  x ← mul ratio (Float 0.029);
  x ← add (Float 0.035) x;
  x ← mul x weight_kg;
  x ← mul x duration_hours;
  mul x (Int 60).

(** Two calls of [show_training_info] on the same instance, one after
    the other. *)
Definition show_training_info_twice (self : ref) : M (ref * ref) :=
  first ← show_training_info self;
  second ← show_training_info self;
  mret (first, second).

(** A computation only reads the object [self] refers to: it leaves
    every heap as it found it, and its outcome is the same on two heaps
    that hold the same object at [self]. *)
Definition reads {A : Type} (self : ref) (m : M A) : Prop :=
  (forall h, (m h).2 = h) /\
  (forall h h', h !! self = h' !! self -> (m h).1 = (m h').1).

(** The five constructor arguments of the message, computed in the
    order [show_training_info] computes them, from the outcomes the
    getters have on the heap [h]. *)
Definition message_fields (self : ref) (h : heap) : result InfoMessage.t :=
  cls ← (getattr (fun t => Some (class_of t)) self h).1;
  duration ← (getattr duration self h).1;
  distance ← (get_distance self h).1;
  speed ← (get_mean_speed self h).1;
  calories ← (get_spent_calories self h).1;
  Ok (InfoMessage.Build (class_name cls) duration distance speed calories).

(** The exceptions of Python's arithmetic. *)
Definition arithmetic (e : exception) : Prop :=
  e = ZeroDivisionError \/ e = OverflowError.

(** The number of fields of a class, the arguments its [__init__]
    takes. *)
Definition fields_count (cls : training_class) : nat :=
  match cls with
  | TrainingCls | RunningCls => 3
  | SportsWalkingCls => 4
  | SwimmingCls => 5
  end.

(** What the driver does with one package: build the workout, then
    compute its summary (printing the message is not modelled). *)
Definition summarise_package (workout_type : string) (data : list number)
  : M ref :=
  training ← read_package workout_type data;
  show_training_info training.

(** The driver's packages, built on an empty heap. *)
Definition built (workout_type : string) (data : list number)
  : result ref * heap :=
  read_package workout_type data [].

End Py.

(** * Properties *)

(** Case analysis on the class of an instance, naming its fields. *)
Ltac by_class self :=
  destruct self as [a d w|a d w|a d w h|a d w l c].

(** Closes a case whose class the hypothesis [H] excludes. *)
Ltac other_class H := exfalso; apply H; reflexivity.

(** Closes a relation between closed numbers by evaluation. *)
Ltac by_value := vm_compute; reflexivity.

(** ** The operators *)

Lemma truediv_Ok (x y : Q) : ~ y == 0 -> truediv x y = Ok (x / y).
Proof.
  intros Hy. unfold truediv.
  destruct (Qeq_bool y 0) eqn:E; [|reflexivity].
  apply Qeq_bool_iff in E. contradiction.
Qed.

Lemma truediv_zero (x y : Q) : y == 0 -> truediv x y = Raise ZeroDivisionError.
Proof.
  intros Hy. unfold truediv. apply Qeq_bool_iff in Hy. now rewrite Hy.
Qed.

Lemma floordiv_Ok (x y : Q) :
  ~ y == 0 -> floordiv x y = Ok (inject_Z (Qfloor (x / y))).
Proof.
  intros Hy. unfold floordiv.
  destruct (Qeq_bool y 0) eqn:E; [|reflexivity].
  apply Qeq_bool_iff in E. contradiction.
Qed.

Lemma truediv_M_IN_KM (x : Q) : truediv x M_IN_KM = Ok (x / 1000).
Proof. reflexivity. Qed.

Lemma truediv_cases (x y : Q) :
  truediv x y = Ok (x / y) \/ truediv x y = Raise ZeroDivisionError.
Proof. unfold truediv. destruct (Qeq_bool y 0); auto. Qed.

Lemma floordiv_cases (x y : Q) :
  (exists q, floordiv x y = Ok q) \/ floordiv x y = Raise ZeroDivisionError.
Proof. unfold floordiv. destruct (Qeq_bool y 0); eauto. Qed.

Lemma bind_Ok {A B} (a : A) (f : A -> result B) : (Ok a ≫= f) = f a.
Proof. reflexivity. Qed.

Lemma bind_Raise {A B} (e : exception) (f : A -> result B) :
  (Raise e ≫= f) = Raise e.
Proof. reflexivity. Qed.

(** ** Distance and speed *)

Lemma get_distance_Ok (self : training) :
  get_distance self = Ok (action self * LEN_STEP self / 1000).
Proof. reflexivity. Qed.

Lemma get_mean_speed_base (self : training) :
  class_of self <> SwimmingCls -> ~ duration self == 0 ->
  get_mean_speed self
  = Ok (action self * 0.65 / 1000 / duration self).
Proof.
  intros Hc Hd.
  destruct self; try (other_class Hc);
    unfold get_mean_speed; rewrite get_distance_Ok, bind_Ok;
    now rewrite truediv_Ok.
Qed.

Lemma get_mean_speed_Swimming (a d w l c : Q) :
  ~ d == 0 ->
  get_mean_speed (Swimming a d w l c) = Ok (l * c / 1000 / d).
Proof.
  intros Hd. unfold get_mean_speed.
  rewrite truediv_M_IN_KM, bind_Ok. now rewrite truediv_Ok.
Qed.

(** ** Running *)

(** C1 (as the code has it): for [Running(15000, 1, 75)] the distance is
    9.75 km, the mean speed 9.75 km/h, and the calories, which are
    [(18 * mean_speed - 20) * weight / 1000 * duration * 60], are
    699.75. *)
Theorem sample_running_values :
  exists d v c,
    get_distance sample_running = Ok d /\ d == 9.75 /\
    get_mean_speed sample_running = Ok v /\ v == 9.75 /\
    get_spent_calories sample_running = Ok c /\
    c == Spec.running_calories v 75 1 /\
    c == 699.75.
Proof.
  do 3 eexists.
  split; [reflexivity|]. split; [by_value|].
  split; [reflexivity|]. split; [by_value|].
  split; [reflexivity|]. split; by_value.
Qed.

(** C1 (as the specification words it) fails: the calories of
    [Running(15000, 1, 75)] are not approximately 700.575, not even to
    within half a calorie. *)
Lemma sample_running_calories_not_700_575 :
  ~ (exists d v c,
       get_distance sample_running = Ok d /\ d == 9.75 /\
       get_mean_speed sample_running = Ok v /\ v == 9.75 /\
       get_spent_calories sample_running = Ok c /\
       c == Spec.running_calories v 75 1 /\
       Spec.approx 0.5 c 700.575).
Proof.
  intros (d & v & c & _ & _ & _ & _ & Hc & _ & Happrox).
  vm_compute in Hc. injection Hc as <-.
  vm_compute in Happrox. now apply Happrox.
Qed.

(** The distance between the two values, for the record. *)
Lemma sample_running_calories_gap :
  exists c, get_spent_calories sample_running = Ok c /\
            Qabs (c - 700.575) == 0.825.
Proof. eexists. split; [reflexivity|]. by_value. Qed.



(** ** Swimming *)

(** C3: with a positive duration the mean speed of a swim is
    [pool_length * pool_laps / 1000 / duration], whatever the stroke
    count, and the calories are [(mean_speed + 1.1) * 2 * weight]; for
    [Swimming(720, 1, 80, 25, 40)] they are 1.0 km/h and 336.0. *)
Theorem swimming_speed_and_calories :
  (forall a d w l c,
     0 < d ->
     exists v cal,
       get_mean_speed (Swimming a d w l c) = Ok v /\
       v == Spec.swimming_speed l c d /\
       (forall a', get_mean_speed (Swimming a' d w l c) = Ok v) /\
       get_spent_calories (Swimming a d w l c) = Ok cal /\
       cal == Spec.swimming_calories v w) /\
  (exists v cal,
     get_mean_speed sample_swimming = Ok v /\ v == 1 /\
     get_spent_calories sample_swimming = Ok cal /\ cal == 336).
Proof.
  split.
  - intros a d w l c Hd.
    assert (Hd0 : ~ d == 0) by lra.
    exists (l * c / 1000 / d). eexists.
    split; [now apply get_mean_speed_Swimming|].
    split; [reflexivity|].
    split; [intros a'; now apply get_mean_speed_Swimming|].
    unfold get_spent_calories.
    rewrite get_mean_speed_Swimming, bind_Ok by assumption.
    split; reflexivity.
  - do 2 eexists. split; [reflexivity|]. split; [by_value|].
    split; [reflexivity|]. by_value.
Qed.

Lemma swimming_speed_and_calories_witness :
  exists v cal,
    get_mean_speed (Swimming 720 1 80 25 40) = Ok v /\
    v == Spec.swimming_speed 25 40 1 /\
    (forall a', get_mean_speed (Swimming a' 1 80 25 40) = Ok v) /\
    get_spent_calories (Swimming 720 1 80 25 40) = Ok cal /\
    cal == Spec.swimming_calories v 80.
Proof.
  apply (proj1 swimming_speed_and_calories 720 1 80 25 40). reflexivity.
Defined.

(** C6: a swim measures its distance with the stroke length 1.38, that
    is [action * 1.38 / 1000]; every other class uses 0.65. *)
Theorem swimming_len_step :
  (forall a d w l c,
     LEN_STEP (Swimming a d w l c) == 1.38 /\
     get_distance (Swimming a d w l c) = Ok (Spec.distance_km a 1.38)) /\
  (forall self,
     class_of self <> SwimmingCls ->
     LEN_STEP self == 0.65 /\
     get_distance self = Ok (Spec.distance_km (action self) 0.65)).
Proof.
  split.
  - intros a d w l c. split; reflexivity.
  - intros self Hc.
    destruct self; try (other_class Hc); split; reflexivity.
Qed.

Lemma swimming_len_step_witness :
  get_distance (Running 15000 1 75) = Ok (Spec.distance_km 15000 0.65) /\
  get_distance (Swimming 720 1 80 25 40) = Ok (Spec.distance_km 720 1.38).
Proof.
  split.
  - apply (proj2 swimming_len_step (Running 15000 1 75)). discriminate.
  - apply (proj1 swimming_len_step 720 1 80 25 40).
Defined.

(** ** Signs *)

Lemma Qdiv_nonneg (x y : Q) : 0 <= x -> 0 < y -> 0 <= x / y.
Proof.
  intros Hx Hy. apply Qle_shift_div_l; [assumption|]. lra.
Qed.



(** ** Exceptions of the methods *)

Lemma get_mean_speed_raises (self : training) (e : exception) :
  get_mean_speed self = Raise e -> e = ZeroDivisionError.
Proof.
  by_class self; unfold get_mean_speed;
    rewrite ?get_distance_Ok, ?truediv_M_IN_KM, bind_Ok;
    match goal with
    | |- truediv ?x ?y = _ -> _ =>
        destruct (truediv_cases x y) as [H|H]; rewrite H; congruence
    end.
Qed.

Lemma get_spent_calories_raises (self : training) (e : exception) :
  class_of self <> TrainingCls ->
  get_spent_calories self = Raise e -> e = ZeroDivisionError.
Proof.
  intros Hc.
  by_class self;
    [other_class Hc| | |]; unfold get_spent_calories;
    match goal with
    | |- context [get_mean_speed ?t] =>
        destruct (get_mean_speed t) as [v|e'] eqn:Hv;
          [rewrite bind_Ok
          |rewrite bind_Raise; apply get_mean_speed_raises in Hv; congruence]
    end.
  - rewrite truediv_M_IN_KM, bind_Ok. discriminate.
  - destruct (floordiv_cases (pow2 v) h) as [[q Hq]|Hq]; rewrite Hq.
    + rewrite bind_Ok. discriminate.
    + rewrite bind_Raise. congruence.
  - discriminate.
Qed.





(** ** The factory *)

Lemma WORKOUTS_lookup (code : string) :
  TrainingFactory.WORKOUTS !! code
  = if decide ("SWM" = code) then Some SwimmingCls
    else if decide ("RUN" = code) then Some RunningCls
    else if decide ("WLK" = code) then Some SportsWalkingCls
    else None.
Proof.
  unfold TrainingFactory.WORKOUTS, WorkoutType.SWIMMING, WorkoutType.RUNNING,
    WorkoutType.SPORTS_WALKING.
  now rewrite !lookup_insert, lookup_empty.
Qed.

Lemma create_recognized (args : list Q) :
  TrainingFactory.create "SWM" args = new SwimmingCls args /\
  TrainingFactory.create "RUN" args = new RunningCls args /\
  TrainingFactory.create "WLK" args = new SportsWalkingCls args.
Proof.
  unfold TrainingFactory.create. rewrite !WORKOUTS_lookup.
  repeat split.
Qed.

Lemma new_class_of (cls : training_class) (args : list Q) (t : training) :
  new cls args = Ok t -> class_of t = cls.
Proof.
  destruct cls;
    destruct args as [|a [|d [|w [|x [|y [|z rest]]]]]]; cbn;
    intros H; try discriminate H; injection H as <-; reflexivity.
Qed.

Lemma new_not_KeyError (cls : training_class) (args : list Q) (msg : string) :
  new cls args <> Raise (KeyError msg).
Proof.
  destruct cls;
    destruct args as [|a [|d [|w [|x [|y [|z rest]]]]]]; cbn; discriminate.
Qed.

(** C4: [create] raises the unknown-workout-type [KeyError] exactly when
    the code is none of "SWM", "RUN" and "WLK", whatever the data; for
    these three codes it calls the constructor of [Swimming], [Running]
    and [SportsWalking], so whatever it returns is an instance of that
    class, and it does return one for data of the class's fields. *)
Theorem create_unknown_workout_type :
  (forall code args,
     (exists msg, TrainingFactory.create code args = Raise (KeyError msg))
     <-> ~ recognized code) /\
  (forall code args,
     ~ recognized code ->
     TrainingFactory.create code args
     = Raise (KeyError "Unknown workout type: '{workout_type}'")) /\
  (forall args t,
     (TrainingFactory.create "SWM" args = Ok t -> class_of t = SwimmingCls) /\
     (TrainingFactory.create "RUN" args = Ok t -> class_of t = RunningCls) /\
     (TrainingFactory.create "WLK" args = Ok t ->
      class_of t = SportsWalkingCls)) /\
  (forall a d w h l c,
     TrainingFactory.create "SWM" [a; d; w; l; c] = Ok (Swimming a d w l c) /\
     TrainingFactory.create "RUN" [a; d; w] = Ok (Running a d w) /\
     TrainingFactory.create "WLK" [a; d; w; h] = Ok (SportsWalking a d w h)).
Proof.
  assert (Hunknown : forall code args,
            ~ recognized code ->
            TrainingFactory.create code args
            = Raise (KeyError "Unknown workout type: '{workout_type}'")).
  { intros code args Hn. unfold TrainingFactory.create.
    rewrite WORKOUTS_lookup.
    repeat case_decide; subst; try reflexivity;
      exfalso; apply Hn; unfold recognized; auto. }
  split; [|split; [exact Hunknown|split]].
  - intros code args. split.
    + intros [msg H] [ -> | [ -> | -> ] ];
        destruct (create_recognized args) as (Hs & Hr & Hw);
        rewrite ?Hs, ?Hr, ?Hw in H; now apply new_not_KeyError in H.
    + intros Hn. eexists. now apply Hunknown.
  - intros args t. destruct (create_recognized args) as (-> & -> & ->).
    repeat split; apply new_class_of.
  - intros a d w h l c. repeat split; apply create_recognized.
Qed.

Lemma create_unknown_workout_type_witness :
  TrainingFactory.create "XYZ" [15000; 1; 75]
  = Raise (KeyError "Unknown workout type: '{workout_type}'") /\
  TrainingFactory.create "XYZ" []
  = Raise (KeyError "Unknown workout type: '{workout_type}'").
Proof.
  split;
    apply (proj1 (proj2 create_unknown_workout_type) "XYZ");
    intros [H|[H|H]]; discriminate H.
Defined.

(** C5: for each recognized code [read_package] raises [TypeError] when
    the data has not exactly as many values as the class has fields (3
    for "RUN", 4 for "WLK", 5 for "SWM"); otherwise it returns the
    instance whose fields are the values in order. *)
Theorem read_package_arity (data : list Q) :
  (length data <> 3%nat -> read_package "RUN" data = Raise TypeError) /\
  (length data = 3%nat ->
   exists a d w,
     data = [a; d; w] /\ read_package "RUN" data = Ok (Running a d w)) /\
  (length data <> 4%nat -> read_package "WLK" data = Raise TypeError) /\
  (length data = 4%nat ->
   exists a d w h,
     data = [a; d; w; h] /\
     read_package "WLK" data = Ok (SportsWalking a d w h)) /\
  (length data <> 5%nat -> read_package "SWM" data = Raise TypeError) /\
  (length data = 5%nat ->
   exists a d w l c,
     data = [a; d; w; l; c] /\
     read_package "SWM" data = Ok (Swimming a d w l c)).
Proof.
  unfold read_package.
  destruct (create_recognized data) as (-> & -> & ->).
  destruct data as [|a [|d [|w [|x [|y [|z rest]]]]]]; cbn;
    repeat split; intros H; try discriminate H; try reflexivity;
    try (exfalso; apply H; reflexivity); eauto 10.
Qed.

Lemma read_package_arity_witness :
  read_package "RUN" [15000; 1; 75; 180] = Raise TypeError /\
  read_package "WLK" [9000; 1; 75] = Raise TypeError /\
  exists a d w l c,
    [720; 1; 80; 25; 40] = [a; d; w; l; c] /\
    read_package "SWM" [720; 1; 80; 25; 40] = Ok (Swimming a d w l c).
Proof.
  split; [|split].
  - apply (proj1 (read_package_arity [15000; 1; 75; 180])). discriminate.
  - apply (proj1 (proj2 (proj2 (read_package_arity [9000; 1; 75])))).
    discriminate.
  - apply (proj2 (proj2 (proj2 (proj2 (proj2
             (read_package_arity [720; 1; 80; 25; 40])))))).
    reflexivity.
Defined.

(** * Further properties of the methods *)

(** ** Closed forms *)

Lemma SportsWalking_calories_Ok (a d w h : Q) :
  ~ d == 0 -> ~ h == 0 ->
  get_spent_calories (SportsWalking a d w h)
  = Ok ((0.035 + inject_Z (Qfloor ((a * 0.65 / 1000 / d) ^ 2 / h)) * 0.029)
        * w * d * 60).
Proof.
  intros Hd Hh. unfold get_spent_calories.
  rewrite get_mean_speed_base by (cbn; auto; discriminate).
  now rewrite bind_Ok, floordiv_Ok, bind_Ok.
Qed.

Lemma SportsWalking_calories_zero_height (a d w h : Q) :
  ~ d == 0 -> h == 0 ->
  get_spent_calories (SportsWalking a d w h) = Raise ZeroDivisionError.
Proof.
  intros Hd Hh. unfold get_spent_calories.
  rewrite get_mean_speed_base by (cbn; auto; discriminate).
  rewrite bind_Ok. unfold floordiv.
  apply Qeq_bool_iff in Hh. now rewrite Hh.
Qed.

(** ** A walk of no height *)



(** ** Walking: more steps *)



(** ** Packages and the workouts they build *)

Lemma create_Ok_recognized (code : string) (args : list Q) (t : training) :
  TrainingFactory.create code args = Ok t -> recognized code.
Proof.
  unfold TrainingFactory.create. rewrite WORKOUTS_lookup.
  unfold recognized. repeat case_decide; subst; auto. discriminate.
Qed.

Lemma read_package_Ok_inv (code : string) (data : list Q) (t : training) :
  read_package code data = Ok t ->
  (code = "RUN" /\ exists a d w, data = [a; d; w] /\ t = Running a d w) \/
  (code = "WLK" /\
   exists a d w h, data = [a; d; w; h] /\ t = SportsWalking a d w h) \/
  (code = "SWM" /\
   exists a d w l c, data = [a; d; w; l; c] /\ t = Swimming a d w l c).
Proof.
  unfold read_package. intros H.
  destruct (create_Ok_recognized _ _ _ H) as [ -> | [ -> | -> ] ];
    destruct (create_recognized data) as (Hs & Hr & Hw);
    rewrite ?Hs, ?Hr, ?Hw in H;
    destruct data as [|a [|d [|w [|x [|y [|z rest]]]]]]; cbn in H;
    try discriminate H; injection H as <-; eauto 12.
Qed.

(** X12: [read_package] is one-to-one: two packages that build the same
    workout have the same code and the same data; and the workouts some
    package builds are exactly the instances of the three variants, never
    an instance of the base class. *)
Theorem read_package_one_to_one :
  (forall code code' data data' t,
     read_package code data = Ok t -> read_package code' data' = Ok t ->
     code = code' /\ data = data') /\
  (forall t,
     (exists code data, read_package code data = Ok t)
     <-> class_of t <> TrainingCls).
Proof.
  split.
  - intros code code' data data' t H H'.
    apply read_package_Ok_inv in H, H'.
    destruct H as [(-> & a & d & w & -> & ->)
                  |[(-> & a & d & w & h & -> & ->)
                   |(-> & a & d & w & l & c & -> & ->)]];
      destruct H' as [(-> & a' & d' & w' & -> & E)
                     |[(-> & a' & d' & w' & h' & -> & E)
                      |(-> & a' & d' & w' & l' & c' & -> & E)]];
      try discriminate E; injection E as <-; subst; split; reflexivity.
  - intros t. split.
    + intros (code & data & H). apply read_package_Ok_inv in H.
      destruct H as [(_ & a & d & w & _ & ->)
                    |[(_ & a & d & w & h & _ & ->)
                     |(_ & a & d & w & l & c & _ & ->)]]; discriminate.
    + intros Hc. by_class t; [other_class Hc| | |].
      * exists "RUN", [a; d; w].
        apply (proj1 (proj2 (create_recognized [a; d; w]))).
      * exists "WLK", [a; d; w; h].
        apply (proj2 (proj2 (create_recognized [a; d; w; h]))).
      * exists "SWM", [a; d; w; l; c].
        apply (proj1 (create_recognized [a; d; w; l; c])).
Qed.

Lemma read_package_one_to_one_witness :
  (exists code data, read_package code data = Ok sample_walking) /\
  forall code data,
    read_package code data = Ok sample_walking ->
    code = "WLK" /\ data = [9000; 1; 75; 180].
Proof.
  split.
  - apply (proj2 read_package_one_to_one sample_walking). discriminate.
  - intros code data H.
    apply (proj1 read_package_one_to_one code "WLK" data
             [9000; 1; 75; 180] sample_walking H).
    reflexivity.
Defined.

(** * The program on binary64 numbers and heap objects: properties *)

(** ** Computations that only read *)

Lemma M_bind_unfold {A B} (m : Py.M A) (f : A -> Py.M B) (h : Py.heap) :
  (m ≫= f) h
  = match m h with
    | (Ok a, h') => f a h'
    | (Raise e, h') => (Raise e, h')
    end.
Proof. reflexivity. Qed.

Lemma reads_at {A} (self : Py.ref) (m : Py.M A) (h h' : Py.heap) :
  Py.reads self m -> h !! self = h' !! self -> m h' = ((m h).1, h').
Proof.
  intros [Hheap Hval] Heq. pose proof (Hheap h') as E.
  rewrite (Hval h h' Heq). destruct (m h') as [r h'']. simpl in *.
  now subst.
Qed.

Lemma reads_here {A} (self : Py.ref) (m : Py.M A) (h : Py.heap) :
  Py.reads self m -> m h = ((m h).1, h).
Proof. intros H. now apply (reads_at self m h h H). Qed.

Lemma reads_ret {A} (self : Py.ref) (a : A) : Py.reads self (mret a).
Proof. split; reflexivity. Qed.

Lemma reads_lift {A} (self : Py.ref) (r : result A) : Py.reads self (Py.lift r).
Proof. split; reflexivity. Qed.

Lemma reads_getattr {A} (self : Py.ref) (name : Py.training -> option A) :
  Py.reads self (Py.getattr name self).
Proof.
  split; unfold Py.getattr.
  - intros h. destruct (h !! self) as [[t|m]|]; [destruct (name t)| |];
      reflexivity.
  - intros h h' <-. destruct (h !! self) as [[t|m]|]; [destruct (name t)| |];
      reflexivity.
Qed.

Lemma reads_bind {A B} (self : Py.ref) (m : Py.M A) (f : A -> Py.M B) :
  Py.reads self m -> (forall a, Py.reads self (f a)) ->
  Py.reads self (m ≫= f).
Proof.
  intros Hm Hf. split.
  - intros h. rewrite M_bind_unfold, (reads_here self m h Hm).
    destruct (m h).1 as [a|e]; [apply (Hf a)|reflexivity].
  - intros h h' Heq.
    rewrite !M_bind_unfold, (reads_at self m h h' Hm Heq),
      (reads_here self m h Hm).
    destruct (m h).1 as [a|e]; [now apply (Hf a)|reflexivity].
Qed.

(** Every step of a getter is a read. *)
Ltac reads_steps :=
  repeat first
    [ apply reads_getattr
    | apply reads_lift
    | apply reads_ret
    | assumption
    | apply reads_bind; [|intros ?] ].

Lemma reads_get_distance (self : Py.ref) : Py.reads self (Py.get_distance self).
Proof. unfold Py.get_distance. reads_steps. Qed.

Lemma reads_get_mean_speed (self : Py.ref) :
  Py.reads self (Py.get_mean_speed self).
Proof.
  pose proof (reads_get_distance self).
  unfold Py.get_mean_speed. apply reads_bind; [reads_steps|].
  intros cls. destruct cls; reads_steps.
Qed.

Lemma reads_get_spent_calories (self : Py.ref) :
  Py.reads self (Py.get_spent_calories self).
Proof.
  pose proof (reads_get_mean_speed self).
  unfold Py.get_spent_calories. apply reads_bind; [reads_steps|].
  intros cls. destruct cls; reads_steps.
Qed.

(** ** Summaries *)

(** One step of [show_training_info] that reads: its outcome on [h'] is
    its outcome on [h]. *)
Ltac read_step Hread Heq :=
  rewrite M_bind_unfold, (reads_at _ _ _ _ Hread Heq);
  match goal with
  | |- context [(?m ?h).1] =>
      destruct (m h).1; cbv beta iota;
      rewrite ?bind_Ok, ?bind_Raise; [|reflexivity]
  end.

Lemma show_training_info_at (self : Py.ref) (h h' : Py.heap) :
  h !! self = h' !! self ->
  Py.show_training_info self h'
  = match Py.message_fields self h with
    | Ok info => (Ok (length h'), (h' ++ [Py.InfoMessageObj info])%list)
    | Raise e => (Raise e, h')
    end.
Proof.
  intros Heq. unfold Py.show_training_info, Py.message_fields.
  read_step (reads_getattr self (fun t => Some (Py.class_of t))) Heq.
  read_step (reads_getattr self Py.duration) Heq.
  read_step (reads_get_distance self) Heq.
  read_step (reads_get_mean_speed self) Heq.
  read_step (reads_get_spent_calories self) Heq.
  reflexivity.
Qed.

Lemma message_fields_Ok (self : Py.ref) (h : Py.heap) (info : Py.InfoMessage.t) :
  Py.message_fields self h = Ok info ->
  exists t,
    h !! self = Some (Py.TrainingObj t) /\
    Py.InfoMessage.training_type info = class_name (Py.class_of t) /\
    Py.duration t = Some (Py.InfoMessage.duration info) /\
    (Py.get_distance self h).1 = Ok (Py.InfoMessage.distance info) /\
    (Py.get_mean_speed self h).1 = Ok (Py.InfoMessage.speed info) /\
    (Py.get_spent_calories self h).1 = Ok (Py.InfoMessage.calories info).
Proof.
  unfold Py.message_fields, Py.getattr.
  destruct (h !! self) as [[t|m]|]; try discriminate.
  cbn [fst]. rewrite bind_Ok.
  destruct t as [a d w|a d w|a d w x|a d w l c]; cbn [Py.duration fst];
    rewrite bind_Ok;
    destruct (Py.get_distance self h).1 as [dist|]; try discriminate;
    rewrite bind_Ok;
    destruct (Py.get_mean_speed self h).1 as [v|]; try discriminate;
    rewrite bind_Ok;
    destruct (Py.get_spent_calories self h).1 as [cal|]; try discriminate;
    rewrite bind_Ok; intros [= <-]; eexists; repeat split; reflexivity.
Qed.

(** C9: when a call of [show_training_info] on a workout returns a
    message, a second call on the same workout returns one too: a
    different object with the same training type, duration, distance,
    speed and calories.  The calls change no object that was on the heap,
    they only add the two messages; the fields are what the getters
    return, and the training type is the name of the workout's class. *)
Theorem summary_twice_same_fields
  (self m1 : Py.ref) (h h1 : Py.heap) :
  Py.show_training_info self h = (Ok m1, h1) ->
  exists m2 h2 t i1 i2,
    Py.show_training_info self h1 = (Ok m2, h2) /\
    Py.show_training_info_twice self h = (Ok (m1, m2), h2) /\
    m1 <> m2 /\
    h2 !! m1 = Some (Py.InfoMessageObj i1) /\
    h2 !! m2 = Some (Py.InfoMessageObj i2) /\
    Py.InfoMessage.training_type i1 = Py.InfoMessage.training_type i2 /\
    Py.InfoMessage.duration i1 = Py.InfoMessage.duration i2 /\
    Py.InfoMessage.distance i1 = Py.InfoMessage.distance i2 /\
    Py.InfoMessage.speed i1 = Py.InfoMessage.speed i2 /\
    Py.InfoMessage.calories i1 = Py.InfoMessage.calories i2 /\
    (forall r o, h !! r = Some o -> h2 !! r = Some o) /\
    length h2 = S (S (length h)) /\
    h !! self = Some (Py.TrainingObj t) /\
    Py.InfoMessage.training_type i1
    = match t with
      | Py.Training _ _ _ => "Training"
      | Py.Running _ _ _ => "Running"
      | Py.SportsWalking _ _ _ _ => "SportsWalking"
      | Py.Swimming _ _ _ _ _ => "Swimming"
      end /\
    Py.duration t = Some (Py.InfoMessage.duration i1) /\
    (Py.get_distance self h).1 = Ok (Py.InfoMessage.distance i1) /\
    (Py.get_mean_speed self h).1 = Ok (Py.InfoMessage.speed i1) /\
    (Py.get_spent_calories self h).1 = Ok (Py.InfoMessage.calories i1).
Proof.
  intros H1.
  rewrite (show_training_info_at self h h eq_refl) in H1.
  destruct (Py.message_fields self h) as [info|e] eqn:Hinfo;
    [|discriminate H1].
  injection H1 as <- <-.
  destruct (message_fields_Ok self h info Hinfo)
    as (t & Hself & Hname & Hd & Hdist & Hv & Hcal).
  assert (Hlt : (self < length h)%nat) by (eapply lookup_lt_Some; eauto).
  assert (Hsame : h !! self = (h ++ [Py.InfoMessageObj info])%list !! self)
    by (now rewrite lookup_app_l).
  pose proof (show_training_info_at self h _ Hsame) as H2.
  rewrite Hinfo in H2.
  eexists _, _, t, info, info. unfold Py.heap, Py.ref in *.
  split; [exact H2|]. split.
  { unfold Py.show_training_info_twice.
    rewrite M_bind_unfold, (show_training_info_at self h h eq_refl), Hinfo.
    now rewrite M_bind_unfold, H2. }
  split; [rewrite length_app; cbn; lia|].
  split; [rewrite lookup_app_l by (rewrite length_app; cbn; lia);
          now rewrite list_lookup_middle|].
  split; [now rewrite list_lookup_middle|].
  do 5 (split; [reflexivity|]).
  split.
  { intros r o Hr. pose proof (lookup_lt_Some _ _ _ Hr).
    rewrite !lookup_app_l; [assumption|lia|rewrite length_app; cbn; lia]. }
  split; [rewrite !length_app; cbn; lia|].
  split; [assumption|].
  split; [rewrite Hname; now destruct t|].
  repeat split; assumption.
Qed.

Lemma summary_twice_same_fields_witness :
  exists m2 h2 i1 i2,
    Py.show_training_info_twice 0%nat
      [Py.TrainingObj
         (Py.Swimming (Py.Int 720) (Py.Int 1) (Py.Int 80) (Py.Int 25)
            (Py.Int 40))]
    = (Ok (1%nat, m2), h2) /\
    1%nat <> m2 /\
    h2 !! 1%nat = Some (Py.InfoMessageObj i1) /\
    h2 !! m2 = Some (Py.InfoMessageObj i2) /\
    Py.InfoMessage.distance i1 = Py.InfoMessage.distance i2 /\
    Py.InfoMessage.speed i1 = Py.InfoMessage.speed i2 /\
    Py.InfoMessage.calories i1 = Py.InfoMessage.calories i2 /\
    Py.InfoMessage.training_type i1 = "Swimming".
Proof.
  edestruct (summary_twice_same_fields 0%nat 1%nat
               [Py.TrainingObj
                  (Py.Swimming (Py.Int 720) (Py.Int 1) (Py.Int 80)
                     (Py.Int 25) (Py.Int 40))])
    as (m2 & h2 & t & i1 & i2 & _ & Htwice & Hne & H1 & H2 & _ & _ & Hdist
        & Hv & Hcal & _ & _ & Hself & Hname & _).
  - vm_compute. reflexivity.
  - injection Hself as <-. exists m2, h2, i1, i2. repeat split; assumption.
Defined.

(** ** Walking on binary64 numbers *)

(** One step of [get_spent_calories] on a known object. *)
Ltac calories_step Hself :=
  rewrite M_bind_unfold;
  first
    [ unfold Py.getattr at 1; rewrite Hself; cbv beta iota;
      cbn [Py.class_of Py.height Py.weight Py.duration]
    | unfold Py.lift at 1;
      match goal with
      | |- match ?r with _ => _ end = _ =>
          destruct r; rewrite ?bind_Ok, ?bind_Raise; [|reflexivity]
      end ].

Lemma walking_calories_on (self : Py.ref) (h : Py.heap) (a d w x : Py.number) :
  h !! self = Some (Py.TrainingObj (Py.SportsWalking a d w x)) ->
  Py.get_spent_calories self h
  = ((Py.get_mean_speed self h).1
       ≫= (fun v => Py.spec_walking_calories v x w d), h).
Proof.
  intros Hself. unfold Py.get_spent_calories, Py.spec_walking_calories.
  calories_step Hself.
  rewrite M_bind_unfold, (reads_here _ _ _ (reads_get_mean_speed self)).
  cbn [fst].
  destruct (Py.get_mean_speed self h).1 as [v|e];
    rewrite ?bind_Ok, ?bind_Raise; [|reflexivity].
  do 9 calories_step Hself.
  reflexivity.
Qed.

(** The walk of the driver's sample package. *)
Lemma built_sample_walking :
  Py.built "WLK" [Py.Int 9000; Py.Int 1; Py.Int 75; Py.Int 180]
  = (Ok 0%nat,
     [Py.TrainingObj
        (Py.SportsWalking (Py.Int 9000) (Py.Int 1) (Py.Int 75) (Py.Int 180))]).
Proof. vm_compute. reflexivity. Qed.




(** ** What the methods can raise *)

(** Goes through the cases of an arithmetic operation. *)
Ltac operation_cases :=
  unfold Py.arithmetic, Py.to_float, Py.int_truediv, mbind, result_bind;
  repeat case_match; intros; simplify_eq; auto.

Lemma mul_raises (x y : Py.number) (e : exception) :
  Py.mul x y = Raise e -> Py.arithmetic e.
Proof. unfold Py.mul. operation_cases. Qed.

Lemma add_raises (x y : Py.number) (e : exception) :
  Py.add x y = Raise e -> Py.arithmetic e.
Proof. unfold Py.add. operation_cases. Qed.

Lemma sub_raises (x y : Py.number) (e : exception) :
  Py.sub x y = Raise e -> Py.arithmetic e.
Proof. unfold Py.sub. operation_cases. Qed.

Lemma truediv_raises (x y : Py.number) (e : exception) :
  Py.truediv x y = Raise e -> Py.arithmetic e.
Proof. unfold Py.truediv. operation_cases. Qed.

Lemma floordiv_raises (x y : Py.number) (e : exception) :
  Py.floordiv x y = Raise e -> Py.arithmetic e.
Proof. unfold Py.floordiv. operation_cases. Qed.

Lemma pow2_raises (x : Py.number) (e : exception) :
  Py.pow2 x = Raise e -> Py.arithmetic e.
Proof. unfold Py.pow2. operation_cases. Qed.

Create HintDb py_raises.
#[local] Hint Resolve mul_raises add_raises sub_raises truediv_raises
  floordiv_raises pow2_raises : py_raises.

(** One step of a method on a known object, towards what it raises. *)
Ltac raises_step Hself :=
  rewrite M_bind_unfold;
  first
    [ unfold Py.getattr at 1; rewrite Hself; cbv beta iota;
      cbn [Py.class_of Py.action Py.duration Py.weight Py.height
             Py.length_pool Py.count_pool Py.LEN_STEP]
    | unfold Py.lift at 1;
      match goal with
      | |- (match ?r with _ => _ end).1 = _ -> _ =>
          destruct r eqn:?;
          [|cbn [fst]; intros [= <-]; eauto with py_raises]
      end ].

(** The last step of a method. *)
Ltac raises_last :=
  unfold Py.lift; cbn [fst]; eauto with py_raises.

(** A call of another getter inside a method. *)
Ltac raises_call Hread Hraises :=
  rewrite M_bind_unfold, (reads_here _ _ _ Hread);
  match goal with
  | |- context [(?m ?h).1] =>
      let E := fresh "E" in
      destruct (m h).1 eqn:E;
      [|cbn [fst]; intros [= <-]; eapply Hraises; eauto]
  end.

Lemma py_get_distance_raises
  (self : Py.ref) (h : Py.heap) (t : Py.training) (e : exception) :
  h !! self = Some (Py.TrainingObj t) ->
  (Py.get_distance self h).1 = Raise e -> Py.arithmetic e.
Proof.
  intros Hself. unfold Py.get_distance.
  destruct t; do 3 raises_step Hself; raises_last.
Qed.

Lemma py_get_mean_speed_raises
  (self : Py.ref) (h : Py.heap) (t : Py.training) (e : exception) :
  h !! self = Some (Py.TrainingObj t) ->
  (Py.get_mean_speed self h).1 = Raise e -> Py.arithmetic e.
Proof.
  intros Hself. unfold Py.get_mean_speed.
  destruct t; raises_step Hself.
  1-3: raises_call (reads_get_distance self) py_get_distance_raises;
       raises_step Hself; raises_last.
  do 5 raises_step Hself. raises_last.
Qed.

Lemma py_get_spent_calories_raises
  (self : Py.ref) (h : Py.heap) (t : Py.training) (e : exception) :
  h !! self = Some (Py.TrainingObj t) ->
  Py.class_of t <> TrainingCls ->
  (Py.get_spent_calories self h).1 = Raise e -> Py.arithmetic e.
Proof.
  intros Hself Hcls. unfold Py.get_spent_calories.
  destruct t; [now contradiction Hcls| | |]; raises_step Hself;
    raises_call (reads_get_mean_speed self) py_get_mean_speed_raises.
  - do 7 raises_step Hself. raises_last.
  - do 9 raises_step Hself. raises_last.
  - do 3 raises_step Hself. raises_last.
Qed.

Lemma message_fields_raises
  (self : Py.ref) (h : Py.heap) (t : Py.training) (e : exception) :
  h !! self = Some (Py.TrainingObj t) ->
  Py.class_of t <> TrainingCls ->
  Py.message_fields self h = Raise e -> Py.arithmetic e.
Proof.
  intros Hself Hcls. unfold Py.message_fields, Py.getattr. rewrite Hself.
  cbn [fst]. rewrite bind_Ok.
  assert (Hd : exists d, Py.duration t = Some d) by (destruct t; eauto).
  destruct Hd as [d ->]. cbn [fst]. rewrite bind_Ok.
  destruct (Py.get_distance self h).1 eqn:Edist;
    [rewrite bind_Ok|rewrite bind_Raise; intros [= <-];
                     eapply py_get_distance_raises; eauto].
  destruct (Py.get_mean_speed self h).1 eqn:Ev;
    [rewrite bind_Ok|rewrite bind_Raise; intros [= <-];
                     eapply py_get_mean_speed_raises; eauto].
  destruct (Py.get_spent_calories self h).1 eqn:Ecal;
    [rewrite bind_Ok; discriminate
    |rewrite bind_Raise; intros [= <-];
     eapply py_get_spent_calories_raises; eauto].
Qed.

(** X14: the getters only read.  [get_distance], [get_mean_speed] and
    [get_spent_calories] leave the heap exactly as they found it, whether
    they return or raise, and their outcome depends on nothing but the
    object their argument refers to; [show_training_info] either raises
    and leaves the heap as it was, or appends one message and returns
    the reference to it. *)
Theorem getters_only_read (self : Py.ref) :
  (forall h,
     (Py.get_distance self h).2 = h /\
     (Py.get_mean_speed self h).2 = h /\
     (Py.get_spent_calories self h).2 = h) /\
  (forall h h',
     h !! self = h' !! self ->
     (Py.get_distance self h).1 = (Py.get_distance self h').1 /\
     (Py.get_mean_speed self h).1 = (Py.get_mean_speed self h').1 /\
     (Py.get_spent_calories self h).1 = (Py.get_spent_calories self h').1) /\
  (forall h,
     (exists e, Py.show_training_info self h = (Raise e, h)) \/
     (exists info,
        Py.show_training_info self h
        = (Ok (length h), (h ++ [Py.InfoMessageObj info])%list))).
Proof.
  destruct (reads_get_distance self) as [Hd1 Hd2].
  destruct (reads_get_mean_speed self) as [Hv1 Hv2].
  destruct (reads_get_spent_calories self) as [Hc1 Hc2].
  split; [|split].
  - intros h. repeat split; auto.
  - intros h h' Heq. repeat split; auto.
  - intros h. rewrite (show_training_info_at self h h eq_refl).
    destruct (Py.message_fields self h); eauto.
Qed.

Lemma getters_only_read_witness :
  (Py.get_spent_calories 0%nat
     [Py.TrainingObj (Py.Running (Py.Int 15000) (Py.Int 1) (Py.Int 75))]).1
  = (Py.get_spent_calories 0%nat
       [Py.TrainingObj (Py.Running (Py.Int 15000) (Py.Int 1) (Py.Int 75));
        Py.TrainingObj (Py.Running (Py.Int 1000) (Py.Int 1) (Py.Int 75))]).1.
Proof.
  apply (proj1 (proj2 (getters_only_read 0%nat))). reflexivity.
Defined.

(** ** Packages and their summaries *)

Lemma WORKOUTS_Some (code : string) (cls : training_class) :
  TrainingFactory.WORKOUTS !! code = Some cls -> cls <> TrainingCls.
Proof.
  rewrite WORKOUTS_lookup. repeat case_decide; intros [= <-]; discriminate.
Qed.

Lemma new_outcome (cls : training_class) (data : list Py.number) (h : Py.heap) :
  (length data <> Py.fields_count cls ->
   Py.new cls data h = (Raise TypeError, h)) /\
  (length data = Py.fields_count cls ->
   exists t,
     Py.class_of t = cls /\
     Py.new cls data h = (Ok (length h), (h ++ [Py.TrainingObj t])%list)).
Proof.
  destruct cls; destruct data as [|a [|d [|w [|x [|y [|z rest]]]]]]; cbn;
    split; intros H; try reflexivity; try discriminate H;
    try (exfalso; apply H; reflexivity);
    (eexists; split; [|reflexivity]; reflexivity).
Qed.

Lemma show_training_info_built (h : Py.heap) (t : Py.training) :
  Py.class_of t <> TrainingCls ->
  (exists info,
     Py.show_training_info (length h) (h ++ [Py.TrainingObj t])%list
     = (Ok (S (length h)),
        (h ++ [Py.TrainingObj t; Py.InfoMessageObj info])%list) /\
     Py.InfoMessage.training_type info = class_name (Py.class_of t)) \/
  (exists e,
     Py.arithmetic e /\
     Py.show_training_info (length h) (h ++ [Py.TrainingObj t])%list
     = (Raise e, (h ++ [Py.TrainingObj t])%list)).
Proof.
  intros Hcls.
  assert (Hself : (h ++ [Py.TrainingObj t])%list !! length h
                  = Some (Py.TrainingObj t)) by now apply list_lookup_middle.
  rewrite (show_training_info_at _ _ _ eq_refl).
  destruct (Py.message_fields _ _) as [info|e] eqn:Hinfo.
  - left. exists info. split.
    + rewrite length_app, <- app_assoc. cbn. do 2 f_equal. lia.
    + destruct (message_fields_Ok _ _ _ Hinfo) as (t' & Ht' & Hname & _).
      unfold Py.heap, Py.ref in *.
      rewrite Hself in Ht'. now injection Ht' as <-.
  - right. exists e. split; [|reflexivity].
    eapply message_fields_raises; eauto.
Qed.

(** X15: what building and summarising one package does, on any heap.
    A code that [WORKOUTS] does not hold raises the [KeyError] and changes
    nothing; a code it holds with a wrong number of values raises
    [TypeError] and changes nothing; with the right number of values a new
    workout of the code's class is appended and then either a message is
    appended too, its training type the class's name, or an arithmetic
    exception ([ZeroDivisionError] or [OverflowError]) is raised.  So
    [NotImplementedError] and [AttributeError] are never raised. *)
Theorem summarise_package_outcomes
  (h : Py.heap) (code : string) (data : list Py.number) :
  (TrainingFactory.WORKOUTS !! code = None ->
   Py.summarise_package code data h
   = (Raise (KeyError "Unknown workout type: '{workout_type}'"), h)) /\
  (forall cls,
     TrainingFactory.WORKOUTS !! code = Some cls ->
     length data <> Py.fields_count cls ->
     Py.summarise_package code data h = (Raise TypeError, h)) /\
  (forall cls,
     TrainingFactory.WORKOUTS !! code = Some cls ->
     length data = Py.fields_count cls ->
     exists t,
       Py.class_of t = cls /\
       ((exists info,
           Py.summarise_package code data h
           = (Ok (S (length h)),
              (h ++ [Py.TrainingObj t; Py.InfoMessageObj info])%list) /\
           Py.InfoMessage.training_type info = class_name cls) \/
        (exists e,
           Py.arithmetic e /\
           Py.summarise_package code data h
           = (Raise e, (h ++ [Py.TrainingObj t])%list)))) /\
  (forall e h',
     Py.summarise_package code data h = (Raise e, h') ->
     e <> NotImplementedError /\ e <> AttributeError).
Proof.
  assert (Hnone : TrainingFactory.WORKOUTS !! code = None ->
                  Py.summarise_package code data h
                  = (Raise (KeyError "Unknown workout type: '{workout_type}'"),
                     h)).
  { intros Hcode.
    unfold Py.summarise_package, Py.read_package, Py.create.
    now rewrite M_bind_unfold, Hcode. }
  assert (Hwrong : forall cls,
            TrainingFactory.WORKOUTS !! code = Some cls ->
            length data <> Py.fields_count cls ->
            Py.summarise_package code data h = (Raise TypeError, h)).
  { intros cls Hcode Hlen.
    unfold Py.summarise_package, Py.read_package, Py.create.
    rewrite M_bind_unfold, Hcode.
    now rewrite (proj1 (new_outcome cls data h) Hlen). }
  assert (Hright : forall cls,
            TrainingFactory.WORKOUTS !! code = Some cls ->
            length data = Py.fields_count cls ->
            exists t,
              Py.class_of t = cls /\
              ((exists info,
                  Py.summarise_package code data h
                  = (Ok (S (length h)),
                     (h ++ [Py.TrainingObj t; Py.InfoMessageObj info])%list) /\
                  Py.InfoMessage.training_type info = class_name cls) \/
               (exists e,
                  Py.arithmetic e /\
                  Py.summarise_package code data h
                  = (Raise e, (h ++ [Py.TrainingObj t])%list)))).
  { intros cls Hcode Hlen.
    destruct (proj2 (new_outcome cls data h) Hlen) as (t & Hcls & Hnew).
    exists t. split; [assumption|].
    unfold Py.summarise_package, Py.read_package, Py.create.
    rewrite M_bind_unfold, Hcode, Hnew. subst cls.
    apply show_training_info_built. eapply WORKOUTS_Some; eauto. }
  split; [exact Hnone|]. split; [exact Hwrong|]. split; [exact Hright|].
  intros e h' H.
  destruct (TrainingFactory.WORKOUTS !! code) as [cls|] eqn:Hcode.
  - destruct (decide (length data = Py.fields_count cls)) as [Hlen|Hlen].
    + destruct (Hright cls eq_refl Hlen)
        as (t & _ & [(info & H' & _)|(e' & [He'|He'] & H')]);
        rewrite H' in H; simplify_eq; split; discriminate.
    + rewrite (Hwrong cls eq_refl Hlen) in H. simplify_eq. split; discriminate.
  - rewrite (Hnone eq_refl) in H. simplify_eq. split; discriminate.
Qed.

Lemma summarise_package_outcomes_witness :
  Py.summarise_package "RUN" [Py.Int 15000; Py.Int 1] []
  = (Raise TypeError, []) /\
  Py.summarise_package "XYZ" [Py.Int 15000; Py.Int 1; Py.Int 75] []
  = (Raise (KeyError "Unknown workout type: '{workout_type}'"), []).
Proof.
  split.
  - apply (proj1 (proj2 (summarise_package_outcomes
                           [] "RUN" [Py.Int 15000; Py.Int 1])) RunningCls).
    + reflexivity.
    + cbn. lia.
  - apply (proj1 (summarise_package_outcomes
                    [] "XYZ" [Py.Int 15000; Py.Int 1; Py.Int 75])).
    reflexivity.
Defined.
